(** * attempt: results of fallible calls as values

    A shallow embedding of [src/attempt/__init__.py]: the result container
    [Attempted], the wrapper [Attempt] and the lazy sequence [IterAttempted],
    followed by the properties of the specification that concern them.

    Python code runs in a world it may change and ends either by returning
    or by raising. A computation is therefore a function from the world
    before to an outcome and the world after; what a callee did to the world
    before it raised stays done. Computations are total functions: a wrapped
    function that loops forever is outside this model. *)

From Stdlib Require Import List String ZArith Bool Arith Lia.
Import ListNotations.
Local Open Scope string_scope.
Local Open Scope list_scope.

(** ** Python values *)

#[warnings="-register-all"]
Inductive PyVal : Type :=
| VNone
| VBool (b : bool)
| VInt (z : Z)
| VStr (s : string)
| VTuple (items : list PyVal).

(** Python's truth value of an object, for the values above. *)
Definition truthy (v : PyVal) : bool :=
  match v with
  | VNone => false
  | VBool b => b
  | VInt z => negb (Z.eqb z 0)
  | VStr s => negb (String.eqb s "")
  | VTuple items => match items with [] => false | _ :: _ => true end
  end.

(** ** Exception classes and exception objects *)

(** The part of the builtin hierarchy the module meets, and classes a
    program declares itself ([UserExc name base], single inheritance). *)
Inductive ExcClass : Type :=
| BaseException
| Exception
| KeyboardInterrupt
| SystemExit
| GeneratorExit
| ArithmeticError
| ZeroDivisionError
| LookupError
| KeyError
| IndexError
| ValueError
| TypeError
| RuntimeError
| StopIteration
| UserExc (name : string) (base : ExcClass).

Lemma ExcClass_eq_dec (c k : ExcClass) : {c = k} + {c <> k}.
Proof. decide equality. apply string_dec. Defined.

(** A class followed by its ancestors, nearest first. *)
Fixpoint mro (c : ExcClass) : list ExcClass :=
  match c with
  | BaseException => [BaseException]
  | Exception => [Exception; BaseException]
  | KeyboardInterrupt => [KeyboardInterrupt; BaseException]
  | SystemExit => [SystemExit; BaseException]
  | GeneratorExit => [GeneratorExit; BaseException]
  | ArithmeticError => [ArithmeticError; Exception; BaseException]
  | ZeroDivisionError =>
      [ZeroDivisionError; ArithmeticError; Exception; BaseException]
  | LookupError => [LookupError; Exception; BaseException]
  | KeyError => [KeyError; LookupError; Exception; BaseException]
  | IndexError => [IndexError; LookupError; Exception; BaseException]
  | ValueError => [ValueError; Exception; BaseException]
  | TypeError => [TypeError; Exception; BaseException]
  | RuntimeError => [RuntimeError; Exception; BaseException]
  | StopIteration => [StopIteration; Exception; BaseException]
  | UserExc name base => UserExc name base :: mro base
  end.

Definition issubclass (c k : ExcClass) : bool :=
  if in_dec ExcClass_eq_dec k (mro c) then true else false.

(** An exception object: its class, the identity of the object and its
    arguments. Two objects are the same object when all three agree. *)
Record PyExc : Type := mkExc {
  exc_class : ExcClass;
  exc_id : nat;
  exc_args : list PyVal
}.

Definition isinstance (e : PyExc) (k : ExcClass) : bool :=
  issubclass (exc_class e) k.

(** What stands after [except]: one class, or a tuple of classes. *)
Inductive ExceptSpec : Type :=
| OneClass (k : ExcClass)
| ClassTuple (ks : list ExcClass).

Definition except_matches (spec : ExceptSpec) (e : PyExc) : bool :=
  match spec with
  | OneClass k => isinstance e k
  | ClassTuple ks => existsb (isinstance e) ks
  end.

(** ** Computations *)

Inductive Outcome (A : Type) : Type :=
| Returns (a : A)
| Raises (e : PyExc).
Arguments Returns {A} a.
Arguments Raises {A} e.

Definition Py (W A : Type) : Type := W -> Outcome A * W.

Definition ret {W A} (a : A) : Py W A := fun w => (Returns a, w).

Definition raise {W A} (e : PyExc) : Py W A := fun w => (Raises e, w).

Definition bind {W A B} (c : Py W A) (k : A -> Py W B) : Py W B :=
  fun w =>
    match c w with
    | (Returns a, w') => k a w'
    | (Raises e, w') => (Raises e, w')
    end.

(** [try: body / except spec as e: handler e]. *)
Definition try_except {W A} (body : Py W A) (spec : ExceptSpec)
    (handler : PyExc -> Py W A) : Py W A :=
  fun w =>
    match body w with
    | (Returns a, w') => (Returns a, w')
    | (Raises e, w') =>
        if except_matches spec e then handler e w' else (Raises e, w')
    end.

Declare Scope py_scope.
Delimit Scope py_scope with py.
Notation "x <- c ;; k" := (bind c (fun x => k))
  (at level 61, c at next level, right associativity) : py_scope.
Local Open Scope py_scope.

(** [raise x] where [x] may be [None]: Python then raises a [TypeError]
    of its own. *)
Definition raise_object {W A} (x : option PyExc) : Py W A :=
  match x with
  | Some e => raise e
  | None =>
      raise (mkExc TypeError 0
               [VStr "exceptions must derive from BaseException"])
  end.

(** ** class Attempted *)

Record Attempted : Type := mkAttempted {
  _value : PyVal;
  _exception : option PyExc
}.

Definition Attempted_of (value : PyVal) : Attempted :=
  mkAttempted value None.

Definition Attempted_of_exception (exception : option PyExc) : Attempted :=
  mkAttempted VNone exception.

Definition Attempted_exception (self : Attempted) : option PyExc :=
  _exception self.

Definition Attempted_value {W} (self : Attempted) : Py W PyVal :=
  match Attempted_exception self with
  | Some e => raise e
  | None => ret (_value self)
  end.

(** [__bool__]: [self.exception is None]. *)
Definition Attempted_bool (self : Attempted) : bool :=
  match Attempted_exception self with
  | None => true
  | Some _ => false
  end.

(** ** class Attempt

    The class is generic in the parameters [_P] of the wrapped function;
    [P] is the type of an argument list. *)

Record Attempt (W P : Type) : Type := mkAttempt {
  _exc_types : ExceptSpec;
  _fn : P -> Py W Attempted
}.
Arguments mkAttempt {W P} _ _.
Arguments _exc_types {W P} _.
Arguments _fn {W P} _.

Definition wrapper {W P} (fn : P -> Py W PyVal) (exc_types : ExceptSpec)
    (args : P) : Py W Attempted :=
  try_except
    (r <- fn args ;; ret (Attempted_of r))
    exc_types
    (fun e => ret (Attempted_of_exception (Some e))).

(** [__init__]: with no class given, [exc_types] becomes [Exception]. *)
Definition Attempt_init {W P} (fn : P -> Py W PyVal)
    (exc_types : list ExcClass) : Attempt W P :=
  let exc_types' :=
    match exc_types with
    | [] => OneClass Exception
    | _ :: _ => ClassTuple exc_types
    end in
  mkAttempt exc_types' (wrapper fn exc_types').

Definition Attempt_call {W P} (self : Attempt W P) (args : P)
    : Py W Attempted :=
  _fn self args.

(** ** Attempted.map and Attempted.flatmap *)

Definition Attempted_map {W} (self : Attempted) (fn : PyVal -> Py W PyVal)
    : Py W Attempted :=
  if Attempted_bool self then
    v <- Attempted_value self ;; Attempt_call (Attempt_init fn []) v
  else ret self.

Definition Attempted_flatmap {W} (self : Attempted)
    (fn : PyVal -> Py W Attempted) : Py W Attempted :=
  if Attempted_bool self then
    v <- Attempted_value self ;; fn v
  else ret self.

(** ** Lazy sequences

    An iterable is consumed one element at a time, and producing an element
    may run code: the k-th [next] runs the k-th computation of the list.
    Sources are finite here.

    [__next__] reports the end of an iterator by raising [StopIteration].
    So when the computation of an element raises a [StopIteration], of its
    own or out of a function it calls, whoever reads the sequence with the
    iterator protocol (a [for] loop, [list], [map]) takes it as the end:
    the error is not seen and the elements after it are not read. *)

Definition Iterable (W A : Type) : Type := list (Py W A).

(** What one round of a [for] loop gets from [__next__]. *)
Inductive Step (A : Type) : Type :=
| Item (x : A)
| Stop
| Failed (e : PyExc).
Arguments Item {A} x.
Arguments Stop {A}.
Arguments Failed {A} e.

Definition for_next {W A} (next : Py W A) (w : W) : Step A * W :=
  match next w with
  | (Returns x, w1) => (Item x, w1)
  | (Raises e, w1) =>
      if isinstance e StopIteration then (Stop, w1) else (Failed e, w1)
  end.

(** A [StopIteration] that would leave the body of a generator is replaced
    by this [RuntimeError] (PEP 479); any other error leaves it as it is. *)
Definition generator_raised_StopIteration : PyExc :=
  mkExc RuntimeError 0 [VStr "generator raised StopIteration"].

Definition leaving_generator (e : PyExc) : PyExc :=
  if isinstance e StopIteration then generator_raised_StopIteration else e.

(** A sequence whose elements already exist (a Python list or tuple). *)
Definition iter_list {W A} (xs : list A) : Iterable W A :=
  List.map ret xs.

(** The builtin [map(f, iterable)] with one iterable: nothing runs until
    the element is asked for. Its [__next__] lets every error of the source
    and of [f] through, a [StopIteration] included, which its reader then
    takes as the end (see [for_next]). *)
Definition py_map {W A B} (f : A -> Py W B) (src : Iterable W A)
    : Iterable W B :=
  List.map (fun c => x <- c ;; f x) src.

(** ** class IterAttempted *)

Record IterAttempted (W : Type) : Type := mkIterAttempted {
  _iterable : Iterable W Attempted
}.
Arguments mkIterAttempted {W} _.
Arguments _iterable {W} _.

Definition IterAttempted_from_values {W} (xs : Iterable W PyVal)
    : IterAttempted W :=
  mkIterAttempted (py_map (fun x => ret (Attempted_of x)) xs).

(** [__iter__] yields the elements of [_iterable] one by one: a generator
    whose loop ends when the source ends or raises a [StopIteration], and
    which lets any other error of the source through. Read with the
    iterator protocol it is the source itself. *)
Definition IterAttempted_iter {W} (self : IterAttempted W)
    : Iterable W Attempted :=
  _iterable self.

Definition IterAttempted_map {W} (self : IterAttempted W)
    (fn : PyVal -> Py W PyVal) : IterAttempted W :=
  mkIterAttempted
    (py_map (fun x => Attempted_map x fn) (IterAttempted_iter self)).

(** [Attempt.map] with one iterable; the extra iterables it accepts are
    not modelled. *)
Definition Attempt_map {W P} (self : Attempt W P) (iterable : Iterable W P)
    : IterAttempted W :=
  mkIterAttempted (py_map (Attempt_call self) iterable).

(** *** The generator [values]

    A generator object is a suspended frame over the iterator it reads.
    [values_resume] runs the loop body from the current position up to the
    next [yield], [raise] or the end of the source, and gives back what is
    left of the source: [Returns (Some v)] is [yield v], [Returns None] is
    the end of the loop. The loop reads [self] with the iterator protocol;
    what the body raises leaves through [leaving_generator]. *)

Fixpoint values_resume {W} (ignore_failures : bool)
    (src : Iterable W Attempted) (w : W)
    : Outcome (option PyVal) * Iterable W Attempted * W :=
  match src with
  | [] => (Returns None, [], w)
  | next :: rest =>
      match for_next next w with
      | (Stop, w1) => (Returns None, rest, w1)
      | (Failed e, w1) => (Raises e, rest, w1)
      | (Item t, w1) =>
          if Attempted_bool t then
            match Attempted_value t w1 with
            | (Returns v, w2) => (Returns (Some v), rest, w2)
            | (Raises e, w2) => (Raises (leaving_generator e), rest, w2)
            end
          else if negb ignore_failures then
            match raise_object (A := unit) (Attempted_exception t) w1 with
            | (Raises e, w2) => (Raises (leaving_generator e), rest, w2)
            | (Returns _, w2) => (Returns None, rest, w2)
            end
          else values_resume ignore_failures rest w1
      end
  end.

Record Generator (W : Type) : Type := mkGenerator {
  gen_ignore_failures : bool;
  gen_running : bool;
  gen_source : Iterable W Attempted
}.
Arguments mkGenerator {W} _ _ _.
Arguments gen_ignore_failures {W} _.
Arguments gen_running {W} _.
Arguments gen_source {W} _.

(** Calling [values] runs nothing: it makes the generator object. *)
Definition IterAttempted_values {W} (self : IterAttempted W)
    (ignore_failures : bool) : Generator W :=
  mkGenerator ignore_failures true (IterAttempted_iter self).

(** [next(g)]: a generator that has raised or finished is exhausted. *)
Definition gen_next {W} (g : Generator W) (w : W)
    : Outcome (option PyVal) * Generator W * W :=
  if gen_running g then
    match values_resume (gen_ignore_failures g) (gen_source g) w with
    | (Returns (Some v), rest, w') =>
        (Returns (Some v), mkGenerator (gen_ignore_failures g) true rest, w')
    | (Returns None, rest, w') =>
        (Returns None, mkGenerator (gen_ignore_failures g) false rest, w')
    | (Raises e, rest, w') =>
        (Raises e, mkGenerator (gen_ignore_failures g) false rest, w')
    end
  else (Returns None, g, w).

(** How a consumer's loop over a generator ended. *)
Inductive Ending : Type :=
| Exhausted
| Raised (e : PyExc)
| Suspended.

(** A consumer that asks for at most [n] elements, as [for v in g] does
    when it stops after [n] rounds: the values received in order, how the
    loop ended, the generator and the world afterwards. *)
Fixpoint consume {W} (n : nat) (g : Generator W) (w : W)
    : list PyVal * Ending * Generator W * W :=
  match n with
  | O => ([], Suspended, g, w)
  | S n' =>
      match gen_next g w with
      | (Returns (Some v), g', w') =>
          match consume n' g' w' with
          | (vs, ending, g'', w'') => (v :: vs, ending, g'', w'')
          end
      | (Returns None, g', w') => ([], Exhausted, g', w')
      | (Raises e, g', w') => ([], Raised e, g', w')
      end
  end.

Definition successful (t : Attempted) : Prop := Attempted_bool t = true.

(** [IterAttempted(xs).values(ignore_failures)] over containers that
    already exist. *)
Definition values_of {W} (xs : list Attempted) (ignore_failures : bool)
    : Generator W :=
  IterAttempted_values (mkIterAttempted (iter_list xs)) ignore_failures.

(** ** Sample programs

    The world of the samples is a counter of calls: every sample function
    adds one to it when it is entered. *)

Definition err_value : PyExc := mkExc ValueError 1 [VStr "not a number"].
Definition err_zero : PyExc := mkExc ZeroDivisionError 2 [VStr "division by zero"].
Definition err_exit : PyExc := mkExc SystemExit 3 [VInt 1].
Definition err_interrupt : PyExc := mkExc KeyboardInterrupt 4 [].
Definition err_stop : PyExc := mkExc StopIteration 8 [].

(** [lambda x: x + 1] on integers, [ValueError] on anything else. *)
Definition succ_number (x : PyVal) : Py nat PyVal :=
  fun calls =>
    match x with
    | VInt z => (Returns (VInt (z + 1)), S calls)
    | _ => (Raises err_value, S calls)
    end.

(** A function that calls [sys.exit(1)]. *)
Definition quit (_ : PyVal) : Py nat PyVal :=
  fun calls => (Raises err_exit, S calls).

(** A function interrupted from the keyboard. *)
Definition interrupted (_ : PyVal) : Py nat PyVal :=
  fun calls => (Raises err_interrupt, S calls).

(** [lambda it: next(it)] given an iterator that is used up: the call
    raises [StopIteration]. *)
Definition next_of_empty (_ : PyVal) : Py nat PyVal :=
  fun calls => (Raises err_stop, S calls).

(** [lambda x: x + 1] on integers, [StopIteration] on anything else. *)
Definition stops_on_text (x : PyVal) : Py nat PyVal :=
  fun calls =>
    match x with
    | VInt z => (Returns (VInt (z + 1)), S calls)
    | _ => (Raises err_stop, S calls)
    end.

(** [1 // x], wrapped below in an [Attempt] that softens
    [ArithmeticError] only. *)
Definition inverse (x : PyVal) : Py nat PyVal :=
  fun calls =>
    match x with
    | VInt 0 => (Raises err_zero, S calls)
    | VInt z => (Returns (VInt (1 / z)), S calls)
    | _ => (Raises (mkExc TypeError 5 []), S calls)
    end.

Definition safe_inverse : PyVal -> Py nat Attempted :=
  Attempt_call (Attempt_init inverse [ArithmeticError]).

Definition safe_succ : PyVal -> Py nat Attempted :=
  Attempt_call (Attempt_init succ_number []).

(** A callback for [flatmap] that raises instead of returning a container. *)
Definition broken (_ : PyVal) : Py nat Attempted :=
  fun calls => (Raises err_value, S calls).

Definition failed_zero : Attempted := Attempted_of_exception (Some err_zero).

Definition mixed : list Attempted :=
  [Attempted_of (VInt 1); Attempted_of_exception (Some err_value);
   Attempted_of (VInt 3)].

(** ** The rest of the module *)

(** [__repr__] and [__str__]. How a payload or an exception prints is the
    business of their own classes: the formatters are parameters
    ([repr_value] for [!r] on the value, [repr_exception] for [!r] on what
    [self.exception] returns, and the same for [!s]). *)
Definition Attempted_repr (repr_value : PyVal -> string)
    (repr_exception : option PyExc -> string) (self : Attempted) : string :=
  if Attempted_bool self then
    ("Attempted.of(" ++ repr_value (_value self) ++ ")")%string
  else
    ("Attempted.of_exception("
       ++ repr_exception (Attempted_exception self) ++ ")")%string.

Definition Attempted_str (str_value : PyVal -> string)
    (str_exception : option PyExc -> string) (self : Attempted) : string :=
  if Attempted_bool self then
    ("Attempted.of(" ++ str_value (_value self) ++ ")")%string
  else
    ("Attempted.of_exception("
       ++ str_exception (Attempted_exception self) ++ ")")%string.

(** What [*t] gives in a call: the items of a tuple, the characters of a
    string; the other values here are not iterable. *)
Definition unpack (t : PyVal) : option (list PyVal) :=
  match t with
  | VTuple items => Some items
  | VStr s =>
      Some (List.map (fun c => VStr (String c EmptyString))
              (list_ascii_of_string s))
  | VNone | VBool _ | VInt _ => None
  end.

Definition type_name (v : PyVal) : string :=
  match v with
  | VNone => "NoneType"
  | VBool _ => "bool"
  | VInt _ => "int"
  | VStr _ => "str"
  | VTuple _ => "tuple"
  end.

Definition not_iterable (v : PyVal) : PyExc :=
  mkExc TypeError 0
    [VStr ("'" ++ type_name v ++ "' object is not iterable")%string].

(** [itertools.starmap(f, iterable)]: each element is unpacked into the
    positional arguments of one call; an element that cannot be unpacked
    makes the iterator itself raise [TypeError]. As for [map], an error of
    the call leaves [__next__] whatever it is, and a [StopIteration] among
    them is the end for its reader. *)
Definition py_starmap {W B} (f : list PyVal -> Py W B)
    (src : Iterable W PyVal) : Iterable W B :=
  List.map
    (fun c =>
       t <- c ;;
       match unpack t with
       | Some args => f args
       | None => raise (not_iterable t)
       end)
    src.

(** [Attempt.starmap]; the argument list of the wrapped function is a
    list of positional values. *)
Definition Attempt_starmap {W} (self : Attempt W (list PyVal))
    (iterable : Iterable W PyVal) : IterAttempted W :=
  mkIterAttempted (py_starmap (Attempt_call self) iterable).

(** The builtin [list(iterable)]: every element in order, up to the end
    of the source, which a [StopIteration] is too, or up to the first
    element whose production raises another error, which [list] raises. *)
Fixpoint py_list {W A} (src : Iterable W A) : Py W (list A) :=
  match src with
  | [] => ret []
  | next :: rest =>
      fun w =>
        match for_next next w with
        | (Stop, w1) => (Returns [], w1)
        | (Failed e, w1) => (Raises e, w1)
        | (Item x, w1) => (xs <- py_list rest ;; ret (x :: xs)) w1
        end
  end.

(** What a consumer can see of a run of [consume]: the values it received,
    how its loop ended and the world. *)
Definition observed {W} (run : list PyVal * Ending * Generator W * W)
    : list PyVal * Ending * W :=
  match run with
  | (vs, ending, _, w) => (vs, ending, w)
  end.

(** What a loop does with an error of the call it makes. *)
Inductive OnError : Type :=
| PassOver
| EndQuietly
| RaiseIt (e : PyExc).

(** A reference loop, written without containers and generators, for a
    consumer that takes at most [n] results of [f] over [xs]: call [f] on
    each input in turn and hand its result over; on an error do what
    [on_error] says: go on with the next input, end as if the inputs were
    used up, or raise. *)
Fixpoint reference_loop {W P} (on_error : PyExc -> OnError)
    (f : P -> Py W PyVal) (n : nat) (xs : list P) (w : W)
    : list PyVal * Ending * W :=
  match xs, n with
  | _, O => ([], Suspended, w)
  | [], S _ => ([], Exhausted, w)
  | x :: rest, S n' =>
      match f x w with
      | (Returns r, w1) =>
          match reference_loop on_error f n' rest w1 with
          | (vs, ending, w2) => (r :: vs, ending, w2)
          end
      | (Raises e, w1) =>
          match on_error e with
          | PassOver => reference_loop on_error f n rest w1
          | EndQuietly => ([], Exhausted, w1)
          | RaiseIt e' => ([], Raised e', w1)
          end
      end
  end.

(** What becomes of an error [e] of the wrapped function in a pipeline
    [Attempt(f, *kinds).map(xs).values(ignore_failures)]. Intercepted, it
    is held in a container, which [values] passes over or raises from
    inside its generator. Not intercepted, it leaves the call inside
    [map.__next__]: a [StopIteration] then ends the sequence, any other
    error reaches the consumer. *)
Definition pipeline_on_error (spec : ExceptSpec) (ignore_failures : bool)
    (e : PyExc) : OnError :=
  if except_matches spec e then
    if ignore_failures then PassOver else RaiseIt (leaving_generator e)
  else if isinstance e StopIteration then EndQuietly
  else RaiseIt e.

(** Two sources whose elements are, one by one, the same computation. *)
Definition same_elements {W A} (src src' : Iterable W A) : Prop :=
  Forall2 (fun c d => forall w, c w = d w) src src'.

(** A failed container carries no value of its own. *)
Definition no_stale_value (a : Attempted) : Prop :=
  Attempted_bool a = false -> _value a = VNone.

(** [lambda x: g(f(x))]. *)
Definition compose {W} (f g : PyVal -> Py W PyVal) : PyVal -> Py W PyVal :=
  fun x => y <- f x ;; g y.

(** [lambda a, b: a + b] on integers, counting its calls. *)
Definition add_pair (args : list PyVal) : Py nat PyVal :=
  fun calls =>
    match args with
    | [VInt a; VInt b] => (Returns (VInt (a + b)), S calls)
    | _ => (Raises (mkExc TypeError 6 []), S calls)
    end.

(** * Properties *)

(** ** Exception classes *)

Lemma issubclass_refl (c : ExcClass) : issubclass c c = true.
Proof.
  unfold issubclass.
  destruct (in_dec ExcClass_eq_dec c (mro c)) as [_ | n]; [reflexivity |].
  exfalso; apply n. destruct c; simpl; auto.
Qed.

Lemma mro_ends_in_BaseException (c : ExcClass) : In BaseException (mro c).
Proof. induction c; simpl; auto 6. Qed.

(** Every exception object is an instance of [BaseException]: that class,
    and not [Exception], is the widest an [except] clause can name. *)
Lemma isinstance_BaseException (e : PyExc) : isinstance e BaseException = true.
Proof.
  unfold isinstance, issubclass.
  destruct (in_dec ExcClass_eq_dec BaseException (mro (exc_class e)))
    as [_ | n]; [reflexivity |].
  exfalso; apply n, mro_ends_in_BaseException.
Qed.

Lemma Exception_is_narrower :
  map (fun k => issubclass k Exception)
    [KeyboardInterrupt; SystemExit; GeneratorExit; ValueError;
     UserExc "AppError" Exception; UserExc "Abort" BaseException]
  = [false; false; false; true; true; false].
Proof. reflexivity. Qed.

Lemma except_matches_tuple (ks : list ExcClass) (e : PyExc) :
  except_matches (ClassTuple ks) e = true <->
  exists k, In k ks /\ isinstance e k = true.
Proof. simpl. apply existsb_exists. Qed.

(** ** The wrapper *)

Lemma wrapper_returns {W P} (fn : P -> Py W PyVal) spec args w r w' :
  fn args w = (Returns r, w') ->
  wrapper fn spec args w = (Returns (Attempted_of r), w').
Proof.
  intros H. unfold wrapper, try_except, bind, ret. rewrite H. reflexivity.
Qed.

Lemma wrapper_catches {W P} (fn : P -> Py W PyVal) spec args w e w' :
  fn args w = (Raises e, w') ->
  except_matches spec e = true ->
  wrapper fn spec args w = (Returns (Attempted_of_exception (Some e)), w').
Proof.
  intros H M. unfold wrapper, try_except, bind, ret. rewrite H, M.
  reflexivity.
Qed.

Lemma wrapper_lets_through {W P} (fn : P -> Py W PyVal) spec args w e w' :
  fn args w = (Raises e, w') ->
  except_matches spec e = false ->
  wrapper fn spec args w = (Raises e, w').
Proof.
  intros H M. unfold wrapper, try_except, bind, ret. rewrite H, M.
  reflexivity.
Qed.

Lemma Attempt_call_init {W P} (fn : P -> Py W PyVal) kinds args :
  Attempt_call (Attempt_init fn kinds) args =
  wrapper fn (_exc_types (Attempt_init fn kinds)) args.
Proof. reflexivity. Qed.

(** C1: calling [Attempt(f, *error_kinds)] with [args] runs [f] once on
    [args]. When [f] returns [r] the call returns a container that is
    successful, holds no error, and whose value reads as [r]; when [f]
    raises [e] and [e] is an instance of one of the configured classes the
    call returns a container that is failed, holds [e] itself, and whose
    value, when read, raises [e]; when [e] is an instance of none of them
    the call raises [e]. The world after the call is the world [f] left.
    The configured classes are the ones given, when some are given. *)
Theorem Attempt_call_by_outcome :
  forall (W P : Type) (f : P -> Py W PyVal) (error_kinds : list ExcClass)
         (args : P) (w : W),
    match f args w with
    | (Returns r, w') =>
        Attempt_call (Attempt_init f error_kinds) args w
        = (Returns (Attempted_of r), w')
        /\ Attempted_bool (Attempted_of r) = true
        /\ _exception (Attempted_of r) = None
        /\ Attempted_value (Attempted_of r) w' = (Returns r, w')
    | (Raises e, w') =>
        if except_matches (_exc_types (Attempt_init f error_kinds)) e then
          Attempt_call (Attempt_init f error_kinds) args w
          = (Returns (Attempted_of_exception (Some e)), w')
          /\ Attempted_bool (Attempted_of_exception (Some e)) = false
          /\ Attempted_exception (Attempted_of_exception (Some e)) = Some e
          /\ _exception (Attempted_of_exception (Some e)) = Some e
          /\ Attempted_value (Attempted_of_exception (Some e)) w'
             = (Raises e, w')
        else
          Attempt_call (Attempt_init f error_kinds) args w = (Raises e, w')
    end
    /\ (error_kinds <> [] ->
        forall e,
          except_matches (_exc_types (Attempt_init f error_kinds)) e
          = existsb (isinstance e) error_kinds).
Proof.
  intros W P f error_kinds args w. split.
  - rewrite Attempt_call_init.
    destruct (f args w) as [[r | e] w'] eqn:Hf.
    + repeat split. now apply wrapper_returns.
    + destruct (except_matches _ e) eqn:M.
      * repeat split. now apply wrapper_catches.
      * now apply wrapper_lets_through.
  - intros Hne e. destruct error_kinds as [| k ks]; [congruence | reflexivity].
Qed.

(** C5: for every value [v], [None] included, [Attempted.of(v)] is
    successful, holds no error, and reading its value returns [v] and
    raises nothing; a container is successful exactly when its error field
    is empty: with an error in that field it is failed whatever its value,
    with none it is successful whatever its value, truthy or not. *)
Theorem Attempted_of_is_success :
  forall (W : Type) (v : PyVal) (w : W),
    Attempted_bool (Attempted_of v) = true
    /\ Attempted_value (Attempted_of v) w = (Returns v, w)
    /\ Attempted_value (Attempted_of VNone) w = (Returns VNone, w)
    /\ _exception (Attempted_of v) = None
    /\ (forall a : Attempted,
          Attempted_bool a = true <-> _exception a = None)
    /\ (forall (u : PyVal) (e : PyExc),
          Attempted_bool (mkAttempted u (Some e)) = false)
    /\ (forall u : PyVal, Attempted_bool (mkAttempted u None) = true)
    /\ (forall (u : PyVal) (x : option PyExc),
          Attempted_bool (mkAttempted u x)
          = Attempted_bool (mkAttempted v x)).
Proof.
  intros W v w. repeat split.
  - destruct a as [u [e |]]; simpl; [discriminate | reflexivity].
  - destruct a as [u [e |]]; simpl; intros H; [discriminate | reflexivity].
Qed.

(** C6: for every exception [e], [Attempted.of_exception(e)] is not
    successful, and reading its value raises [e] itself, in the world as it
    stood. *)
Theorem Attempted_of_exception_is_failure :
  forall (W : Type) (e : PyExc) (w : W),
    Attempted_bool (Attempted_of_exception (Some e)) = false
    /\ Attempted_value (Attempted_of_exception (Some e)) w = (Raises e, w)
    /\ Attempted_exception (Attempted_of_exception (Some e)) = Some e.
Proof. intros W e w. repeat split. Qed.

(** C10: [Attempted.of_exception(None)] is not refused: the container it
    returns is successful, reading its value returns [None] and raises
    nothing, and it is the very container [Attempted.of(None)] builds. *)
Theorem Attempted_of_exception_None :
  forall (W : Type) (w : W),
    Attempted_bool (Attempted_of_exception None) = true
    /\ Attempted_value (Attempted_of_exception None) w = (Returns VNone, w)
    /\ Attempted_of_exception None = Attempted_of VNone.
Proof. intros W w. repeat split. Qed.

(** Success does not follow the truth value of the payload: [None], [0]
    and the empty string are falsy and their containers are successful. *)
Example falsy_payloads_succeed :
  map truthy [VNone; VInt 0; VStr ""; VBool false; VTuple []]
  = [false; false; false; false; false]
  /\ map (fun v => Attempted_bool (Attempted_of v))
       [VNone; VInt 0; VStr ""; VBool false; VTuple []]
     = [true; true; true; true; true].
Proof. split; reflexivity. Qed.

(** ** The default of [Attempt] *)

Lemma Attempt_init_default {W P} (fn : P -> Py W PyVal) :
  _exc_types (Attempt_init fn []) = OneClass Exception.
Proof. reflexivity. Qed.

(** C8, as stated, fails: built with no class, [Attempt] does not soften a
    [KeyboardInterrupt] raised by the wrapped function. The call raises it,
    and returns no container. *)
Lemma Attempt_default_lets_KeyboardInterrupt_through :
  interrupted VNone 0 = (Raises err_interrupt, 1)
  /\ Attempt_call (Attempt_init interrupted []) VNone 0
     = (Raises err_interrupt, 1)
  /\ (forall a calls,
        Attempt_call (Attempt_init interrupted []) VNone 0
        <> (Returns a, calls)).
Proof.
  split; [reflexivity |]. split; [reflexivity |].
  intros a calls H. vm_compute in H. discriminate H.
Qed.

(** C8, amended: built with no class, [Attempt] intercepts the class
    [Exception]. An error raised by the wrapped function that is an instance
    of [Exception] comes back in a container that is failed, holds that
    error, and raises it when its value is read; one that is not (a
    [KeyboardInterrupt], a [SystemExit], a [GeneratorExit]) is raised by the
    call. *)
Theorem Attempt_default_intercepts_Exception :
  forall (W P : Type) (f : P -> Py W PyVal) (args : P) (e : PyExc)
         (w w' : W),
    f args w = (Raises e, w') ->
    _exc_types (Attempt_init f []) = OneClass Exception
    /\ (isinstance e Exception = true ->
        Attempt_call (Attempt_init f []) args w
        = (Returns (Attempted_of_exception (Some e)), w')
        /\ Attempted_bool (Attempted_of_exception (Some e)) = false
        /\ _exception (Attempted_of_exception (Some e)) = Some e
        /\ Attempted_value (Attempted_of_exception (Some e)) w'
           = (Raises e, w'))
    /\ (isinstance e Exception = false ->
        Attempt_call (Attempt_init f []) args w = (Raises e, w')).
Proof.
  intros W P f args e w w' Hf. split; [reflexivity |].
  split; intros M; rewrite Attempt_call_init, Attempt_init_default.
  - repeat split. now apply wrapper_catches.
  - now apply wrapper_lets_through.
Qed.

Lemma Attempt_default_intercepts_Exception_witness :
  succ_number (VStr "x") 0 = (Raises err_value, 1)
  /\ (_exc_types (Attempt_init succ_number []) = OneClass Exception
      /\ (isinstance err_value Exception = true ->
          Attempt_call (Attempt_init succ_number []) (VStr "x") 0
          = (Returns (Attempted_of_exception (Some err_value)), 1)
          /\ Attempted_bool (Attempted_of_exception (Some err_value)) = false
          /\ _exception (Attempted_of_exception (Some err_value))
             = Some err_value
          /\ Attempted_value (Attempted_of_exception (Some err_value)) 1
             = (Raises err_value, 1))
      /\ (isinstance err_value Exception = false ->
          Attempt_call (Attempt_init succ_number []) (VStr "x") 0
          = (Raises err_value, 1))).
Proof.
  split; [reflexivity |].
  apply (Attempt_default_intercepts_Exception
           nat PyVal succ_number (VStr "x") err_value 0 1).
  reflexivity.
Defined.

(** ** [map] and [flatmap] on one container *)

Lemma Attempted_value_success {W} (a : Attempted) (w : W) :
  Attempted_bool a = true -> Attempted_value a w = (Returns (_value a), w).
Proof.
  destruct a as [v [e |]]; simpl; [discriminate | reflexivity].
Qed.

Lemma Attempted_map_success {W} (a : Attempted) (f : PyVal -> Py W PyVal) w :
  Attempted_bool a = true ->
  Attempted_map a f w = wrapper f (OneClass Exception) (_value a) w.
Proof.
  intros Ha. unfold Attempted_map, bind. rewrite Ha.
  rewrite (Attempted_value_success a w Ha). reflexivity.
Qed.

Lemma Attempted_flatmap_success {W} (a : Attempted)
    (f : PyVal -> Py W Attempted) w :
  Attempted_bool a = true ->
  Attempted_flatmap a f w = f (_value a) w.
Proof.
  intros Ha. unfold Attempted_flatmap, bind. rewrite Ha.
  rewrite (Attempted_value_success a w Ha). reflexivity.
Qed.

Lemma Attempted_flatmap_failure {W} (a : Attempted)
    (f : PyVal -> Py W Attempted) w :
  Attempted_bool a = false -> Attempted_flatmap a f w = (Returns a, w).
Proof. intros Ha. unfold Attempted_flatmap. rewrite Ha. reflexivity. Qed.

(** C3, as stated, fails: [map] on a successful container with a function
    that calls [sys.exit] raises [SystemExit] instead of returning a failure
    container. *)
Lemma Attempted_map_lets_SystemExit_through :
  Attempted_bool (Attempted_of (VInt 1)) = true
  /\ quit (VInt 1) 0 = (Raises err_exit, 1)
  /\ Attempted_map (Attempted_of (VInt 1)) quit 0 = (Raises err_exit, 1)
  /\ (forall b calls,
        Attempted_map (Attempted_of (VInt 1)) quit 0 <> (Returns b, calls)).
Proof.
  repeat (split; [reflexivity |]).
  intros b calls H. vm_compute in H. discriminate H.
Qed.

(** C3, amended: for a successful container [a] and a function [f], when
    [f(a.value)] returns [r], [a.map(f)] is a successful container whose
    value is [r]; when [f(a.value)] raises an instance of [Exception],
    [a.map(f)] raises nothing and is the failure container holding that
    error; when it raises anything else, [a.map(f)] raises it. *)
Theorem Attempted_map_on_success :
  forall (W : Type) (a : Attempted) (f : PyVal -> Py W PyVal) (w : W),
    Attempted_bool a = true ->
    match f (_value a) w with
    | (Returns r, w') =>
        exists b,
          Attempted_map a f w = (Returns b, w')
          /\ Attempted_bool b = true
          /\ Attempted_value b w' = (Returns r, w')
    | (Raises e, w') =>
        if isinstance e Exception then
          exists b,
            Attempted_map a f w = (Returns b, w')
            /\ Attempted_bool b = false
            /\ Attempted_exception b = Some e
        else Attempted_map a f w = (Raises e, w')
    end.
Proof.
  intros W a f w Ha. rewrite (Attempted_map_success a f w Ha).
  destruct (f (_value a) w) as [[r | e] w'] eqn:Hf.
  - exists (Attempted_of r). repeat split. now apply wrapper_returns.
  - destruct (isinstance e Exception) eqn:M.
    + exists (Attempted_of_exception (Some e)). repeat split.
      now apply wrapper_catches.
    + now apply wrapper_lets_through.
Qed.

Lemma Attempted_map_on_success_witness :
  Attempted_bool (Attempted_of (VInt 41)) = true
  /\ exists b,
       Attempted_map (Attempted_of (VInt 41)) succ_number 0 = (Returns b, 1)
       /\ Attempted_bool b = true
       /\ Attempted_value b 1 = (Returns (VInt 42), 1).
Proof.
  split; [reflexivity |].
  exact (Attempted_map_on_success
           nat (Attempted_of (VInt 41)) succ_number 0 eq_refl).
Defined.

(** C4: on a failed container [a], [a.map(f)] and [a.flatmap(g)] return [a]
    itself, so a failed container with the error of [a], and leave the world
    as it was whatever [f] and [g] would do to it: neither is run. *)
Theorem Attempted_map_flatmap_on_failure :
  forall (W : Type) (a : Attempted) (f : PyVal -> Py W PyVal)
         (g : PyVal -> Py W Attempted) (w : W),
    Attempted_bool a = false ->
    Attempted_map a f w = (Returns a, w)
    /\ Attempted_flatmap a g w = (Returns a, w)
    /\ (forall f' : PyVal -> Py W PyVal,
          Attempted_map a f' w = Attempted_map a f w)
    /\ (forall g' : PyVal -> Py W Attempted,
          Attempted_flatmap a g' w = Attempted_flatmap a g w).
Proof.
  intros W a f g w Ha.
  assert (Hm : forall h : PyVal -> Py W PyVal,
             Attempted_map a h w = (Returns a, w)).
  { intros h. unfold Attempted_map. rewrite Ha. reflexivity. }
  repeat split.
  - apply Hm.
  - now apply Attempted_flatmap_failure.
  - intros f'. now rewrite !Hm.
  - intros g'. now rewrite !Attempted_flatmap_failure.
Qed.

(** On the failed container of a [ZeroDivisionError], with callbacks that
    count their calls: the counter stays at 0. *)
Lemma Attempted_map_flatmap_on_failure_witness :
  Attempted_bool failed_zero = false
  /\ (Attempted_map failed_zero succ_number 0 = (Returns failed_zero, 0)
      /\ Attempted_flatmap failed_zero safe_succ 0 = (Returns failed_zero, 0)
      /\ (forall f' : PyVal -> Py nat PyVal,
            Attempted_map failed_zero f' 0
            = Attempted_map failed_zero succ_number 0)
      /\ (forall g' : PyVal -> Py nat Attempted,
            Attempted_flatmap failed_zero g' 0
            = Attempted_flatmap failed_zero safe_succ 0)).
Proof.
  split; [reflexivity |].
  exact (Attempted_map_flatmap_on_failure
           nat failed_zero succ_number safe_succ 0 eq_refl).
Defined.

(** C9: on a successful container [a], when [fn(a.value)] raises [e],
    [a.flatmap(fn)] raises [e] too, with the world as [fn] left it, and
    returns no container: nothing around the call catches. *)
Theorem Attempted_flatmap_raises :
  forall (W : Type) (a : Attempted) (fn : PyVal -> Py W Attempted)
         (e : PyExc) (w w' : W),
    Attempted_bool a = true ->
    fn (_value a) w = (Raises e, w') ->
    Attempted_flatmap a fn w = (Raises e, w')
    /\ (forall b w'', Attempted_flatmap a fn w <> (Returns b, w'')).
Proof.
  intros W a fn e w w' Ha Hfn.
  rewrite (Attempted_flatmap_success a fn w Ha), Hfn.
  split; [reflexivity | intros b w'' H; discriminate H].
Qed.

Lemma Attempted_flatmap_raises_witness :
  Attempted_bool (Attempted_of (VInt 1)) = true
  /\ broken (_value (Attempted_of (VInt 1))) 0 = (Raises err_value, 1)
  /\ Attempted_flatmap (Attempted_of (VInt 1)) broken 0
     = (Raises err_value, 1)
  /\ (forall b calls,
        Attempted_flatmap (Attempted_of (VInt 1)) broken 0
        <> (Returns b, calls)).
Proof.
  split; [reflexivity |]. split; [reflexivity |].
  exact (Attempted_flatmap_raises
           nat (Attempted_of (VInt 1)) broken err_value 0 1
           eq_refl eq_refl).
Defined.

(** C7: for a successful container [a] and callbacks [f] and [g] that return
    containers, [a.flatmap(f).flatmap(g)] and
    [a.flatmap(lambda x: f(x).flatmap(g))] end the same way, with the same
    container or the same raised error, and leave the same world. *)
Theorem Attempted_flatmap_assoc :
  forall (W : Type) (a : Attempted) (f g : PyVal -> Py W Attempted) (w : W),
    Attempted_bool a = true ->
    (b <- Attempted_flatmap a f ;; Attempted_flatmap b g) w
    = Attempted_flatmap a (fun x => b <- f x ;; Attempted_flatmap b g) w.
Proof.
  intros W a f g w Ha.
  rewrite (Attempted_flatmap_success a _ w Ha).
  unfold bind at 1. rewrite (Attempted_flatmap_success a f w Ha).
  reflexivity.
Qed.

Lemma Attempted_flatmap_assoc_witness :
  Attempted_bool (Attempted_of (VInt (-1))) = true
  /\ (b <- Attempted_flatmap (Attempted_of (VInt (-1))) safe_succ ;;
      Attempted_flatmap b safe_inverse) 0
     = Attempted_flatmap (Attempted_of (VInt (-1)))
         (fun x => b <- safe_succ x ;; Attempted_flatmap b safe_inverse) 0.
Proof.
  split; [reflexivity |].
  exact (Attempted_flatmap_assoc
           nat (Attempted_of (VInt (-1))) safe_succ safe_inverse 0 eq_refl).
Defined.

(** ** The generator [values] *)

Lemma for_next_ret {W A} (x : A) (w : W) : for_next (ret x) w = (Item x, w).
Proof. reflexivity. Qed.

Lemma gen_next_cons {W} ign (c : Py W Attempted) rest w :
  gen_next (mkGenerator ign true (c :: rest)) w
  = match for_next c w with
    | (Stop, w1) => (Returns None, mkGenerator ign false rest, w1)
    | (Failed e, w1) => (Raises e, mkGenerator ign false rest, w1)
    | (Item t, w1) =>
        match Attempted_exception t with
        | None => (Returns (Some (_value t)), mkGenerator ign true rest, w1)
        | Some e =>
            if ign then gen_next (mkGenerator ign true rest) w1
            else (Raises (leaving_generator e),
                  mkGenerator ign false rest, w1)
        end
    end.
Proof.
  unfold gen_next.
  cbn [gen_running gen_ignore_failures gen_source values_resume].
  unfold for_next. destruct (c w) as [[[v [e |]] | e] w1].
  - destruct ign; reflexivity.
  - destruct ign; reflexivity.
  - destruct (isinstance e StopIteration); destruct ign; reflexivity.
Qed.

Lemma gen_next_yields {W} ign (t : Attempted) (rest : Iterable W Attempted) w :
  successful t ->
  gen_next (mkGenerator ign true (ret t :: rest)) w
  = (Returns (Some (_value t)), mkGenerator ign true rest, w).
Proof.
  intros Ht. rewrite gen_next_cons, for_next_ret.
  unfold successful, Attempted_bool in Ht.
  destruct (Attempted_exception t); [discriminate Ht | reflexivity].
Qed.

Lemma gen_next_skips {W} (t : Attempted) (rest : Iterable W Attempted) w :
  Attempted_bool t = false ->
  gen_next (mkGenerator true true (ret t :: rest)) w
  = gen_next (mkGenerator true true rest) w.
Proof.
  intros Ht. rewrite gen_next_cons, for_next_ret.
  unfold Attempted_bool in Ht.
  destruct (Attempted_exception t); [reflexivity | discriminate Ht].
Qed.

Lemma gen_next_reraises {W} (t : Attempted) e (rest : Iterable W Attempted) w :
  Attempted_exception t = Some e ->
  gen_next (mkGenerator false true (ret t :: rest)) w
  = (Raises (leaving_generator e), mkGenerator false false rest, w).
Proof.
  intros Ht. rewrite gen_next_cons, for_next_ret, Ht. reflexivity.
Qed.

Lemma gen_next_at_end {W} ign (w : W) :
  gen_next (mkGenerator ign true []) w
  = (Returns None, mkGenerator ign false [], w).
Proof. reflexivity. Qed.

Lemma consume_skipping {W} (xs : list Attempted) :
  forall (n : nat) (w : W),
    List.length xs < n ->
    consume n (mkGenerator true true (iter_list xs)) w
    = (map _value (filter Attempted_bool xs), Exhausted,
       mkGenerator true false [], w).
Proof.
  induction xs as [| t rest IH]; intros n w Hn.
  - destruct n as [| n]; [inversion Hn | reflexivity].
  - destruct n as [| n]; [inversion Hn |].
    simpl in Hn. simpl filter. destruct (Attempted_bool t) eqn:Ht.
    + change (iter_list (t :: rest))
        with (ret (W := W) t :: iter_list rest).
      cbn [consume]. rewrite (gen_next_yields true t _ w Ht).
      rewrite IH by lia. reflexivity.
    + specialize (IH (S n) w ltac:(lia)).
      change (iter_list (t :: rest))
        with (ret (W := W) t :: iter_list rest).
      cbn [consume] in *. rewrite (gen_next_skips t _ w Ht). exact IH.
Qed.

Lemma consume_prefix {W} ign (pre : list Attempted)
    (rest : Iterable W Attempted) (w : W) :
  Forall successful pre ->
  consume (List.length pre) (mkGenerator ign true (iter_list pre ++ rest)) w
  = (map _value pre, Suspended, mkGenerator ign true rest, w).
Proof.
  induction 1 as [| t pre Ht _ IH]; [reflexivity |].
  change (iter_list (t :: pre) ++ rest)
    with (ret (W := W) t :: (iter_list pre ++ rest)).
  cbn [List.length consume]. rewrite (gen_next_yields ign t _ w Ht).
  rewrite IH. reflexivity.
Qed.

Lemma consume_all_successful {W} ign (xs : list Attempted) :
  forall (n : nat) (w : W),
    Forall successful xs ->
    List.length xs < n ->
    consume n (mkGenerator ign true (iter_list xs)) w
    = (map _value xs, Exhausted, mkGenerator ign false [], w).
Proof.
  induction xs as [| t rest IH]; intros n w Hall Hn.
  - destruct n as [| n]; [inversion Hn | reflexivity].
  - destruct n as [| n]; [inversion Hn |].
    inversion Hall as [| ? ? Ht Hrest]; subst. simpl in Hn.
    change (iter_list (t :: rest))
      with (ret (W := W) t :: iter_list rest).
    cbn [consume]. rewrite (gen_next_yields ign t _ w Ht).
    rewrite IH by (assumption || lia). reflexivity.
Qed.

Lemma consume_until_failure {W} (pre : list Attempted) t e
    (post : list Attempted) :
  forall (n : nat) (w : W),
    Forall successful pre ->
    Attempted_exception t = Some e ->
    List.length pre < n ->
    consume n (mkGenerator false true (iter_list (pre ++ t :: post))) w
    = (map _value pre, Raised (leaving_generator e),
       mkGenerator false false (iter_list post), w).
Proof.
  induction pre as [| p pre IH]; intros n w Hall Ht Hn.
  - destruct n as [| n]; [inversion Hn |].
    change (iter_list ([] ++ t :: post))
      with (ret (W := W) t :: iter_list post).
    cbn [consume]. rewrite (gen_next_reraises t e _ w Ht). reflexivity.
  - destruct n as [| n]; [inversion Hn |].
    inversion Hall as [| ? ? Hp Hpre]; subst. simpl in Hn.
    change (iter_list ((p :: pre) ++ t :: post))
      with (ret (W := W) p :: iter_list (pre ++ t :: post)).
    cbn [consume]. rewrite (gen_next_yields false p _ w Hp).
    rewrite IH by (assumption || lia). reflexivity.
Qed.

(** C2: the code at an input where it departs from the claim. Calling
    [Attempt(next)] on an iterator that is used up returns a failed
    container that holds the [StopIteration]. Over the sequence made of
    that container, [values()] without [ignore_failures] does not raise the
    held error: the consumer gets the [RuntimeError] that replaces a
    [StopIteration] leaving a generator, which is another object of another
    class. *)
Theorem values_replaces_held_StopIteration :
  Attempt_call (Attempt_init next_of_empty []) VNone 0
  = (Returns (Attempted_of_exception (Some err_stop)), 1)
  /\ Attempted_bool (Attempted_of_exception (Some err_stop)) = false
  /\ observed
       (consume 1
          (values_of [Attempted_of_exception (Some err_stop)] false) 1)
     = ([], Raised generator_raised_StopIteration, 1)
  /\ Raised generator_raised_StopIteration <> Raised err_stop
  /\ isinstance generator_raised_StopIteration StopIteration = false.
Proof.
  repeat (split; [reflexivity |]). split; [| reflexivity].
  intros H. inversion H.
Qed.

(** X19: [values(ignore_failures)] over a sequence of containers, read by
    a consumer that asks for elements one after the other.
    - With [ignore_failures] true the consumer receives the values of the
      successful containers, in order, the failed ones are passed over, and
      the loop ends when the sequence does.
    - With [ignore_failures] false and a first failed container [t] holding
      [e], after the successful containers [pre] and before [post]: the
      consumer receives the values of [pre], then an error is raised, which
      is [e] itself unless [e] is a [StopIteration], and then the
      [RuntimeError] that replaces it; the generator is finished and [post]
      is still in the source, unread.
    - Before that, a consumer that has asked [List.length pre] times holds
      the values of [pre] while the generator is suspended in front of [t]:
      they were handed over before [t] was looked at.
    - With no failed container all values are received, whatever the flag.
    The world is never touched by [values] itself. *)
Theorem IterAttempted_values_over_containers :
  forall (W : Type) (w : W),
    (forall (xs : list Attempted) (n : nat),
        List.length xs < n ->
        consume n (values_of xs true) w
        = (map _value (filter Attempted_bool xs), Exhausted,
           mkGenerator true false [], w))
    /\ (forall (pre post : list Attempted) (t : Attempted) (e : PyExc)
               (n : nat),
          Forall successful pre ->
          _exception t = Some e ->
          List.length pre < n ->
          consume n (values_of (pre ++ t :: post) false) w
          = (map _value pre,
             Raised (if isinstance e StopIteration
                     then generator_raised_StopIteration else e),
             mkGenerator false false (iter_list post), w))
    /\ (forall (pre rest : list Attempted) (ignore_failures : bool),
          Forall successful pre ->
          consume (List.length pre) (values_of (pre ++ rest) ignore_failures) w
          = (map _value pre, Suspended,
             mkGenerator ignore_failures true (iter_list rest), w))
    /\ (forall (xs : list Attempted) (ignore_failures : bool) (n : nat),
          Forall successful xs ->
          List.length xs < n ->
          consume n (values_of xs ignore_failures) w
          = (map _value xs, Exhausted,
             mkGenerator ignore_failures false [], w)).
Proof.
  intros W w. unfold values_of, IterAttempted_values, IterAttempted_iter.
  cbn [_iterable]. repeat split.
  - intros xs n Hn. now apply consume_skipping.
  - intros pre post t e n Hall Ht Hn.
    exact (consume_until_failure pre t e post n w Hall Ht Hn).
  - intros pre rest ign Hall. unfold iter_list at 1. rewrite map_app.
    now apply consume_prefix.
  - intros xs ign n Hall Hn. now apply consume_all_successful.
Qed.

(** The sequence success 1, failure, success 3: skipping gives 1 and 3;
    not skipping gives 1, then the error, and the container of 3 stays in
    the source. *)
Lemma IterAttempted_values_over_containers_witness :
  consume 4 (values_of (W := nat) mixed true) 0
  = ([VInt 1; VInt 3], Exhausted, mkGenerator true false [], 0)
  /\ consume 4 (values_of (W := nat) mixed false) 0
     = ([VInt 1], Raised err_value,
        mkGenerator false false (iter_list [Attempted_of (VInt 3)]), 0).
Proof.
  split.
  - exact (proj1 (IterAttempted_values_over_containers nat 0) mixed 4
             ltac:(simpl; repeat constructor)).
  - exact (proj1 (proj2 (IterAttempted_values_over_containers nat 0))
             [Attempted_of (VInt 1)] [Attempted_of (VInt 3)]
             (Attempted_of_exception (Some err_value)) err_value 4
             (Forall_cons (P := successful) (Attempted_of (VInt 1))
                (eq_refl : successful (Attempted_of (VInt 1)))
                (Forall_nil successful))
             eq_refl
             ltac:(simpl; repeat constructor)).
Defined.

(** The inputs 1, "x", 3 through [Attempt(succ_number).map]: the wrapped
    function is run as the consumer advances. Skipping failures it runs
    three times; otherwise it runs twice and never sees 3. *)
Example values_of_lazy_map :
  consume 4
    (IterAttempted_values
       (Attempt_map (Attempt_init succ_number [])
          (iter_list [VInt 1; VStr "x"; VInt 3])) true) 0
  = ([VInt 2; VInt 4], Exhausted, mkGenerator true false [], 3)
  /\ (exists left_over,
        consume 4
          (IterAttempted_values
             (Attempt_map (Attempt_init succ_number [])
                (iter_list [VInt 1; VStr "x"; VInt 3])) false) 0
        = ([VInt 2], Raised err_value,
           mkGenerator false false [left_over], 2)).
Proof.
  split; [reflexivity |]. eexists. reflexivity.
Qed.

(** A wrapped function that raises [StopIteration] on "x", over the inputs
    1, "x", 3. Intercepted (the default), the error is held: [values()]
    raises a [RuntimeError] in its place, and passes it over when told to
    ignore failures. Not intercepted (only [KeyError] is), it leaves the
    call and ends the sequence: the consumer gets 2 and a normal end, and 3
    is never given to the function. *)
Example StopIteration_in_a_pipeline :
  observed
    (consume 4
       (IterAttempted_values
          (Attempt_map (Attempt_init stops_on_text [])
             (iter_list [VInt 1; VStr "x"; VInt 3])) false) 0)
  = ([VInt 2], Raised generator_raised_StopIteration, 2)
  /\ observed
       (consume 4
          (IterAttempted_values
             (Attempt_map (Attempt_init stops_on_text [])
                (iter_list [VInt 1; VStr "x"; VInt 3])) true) 0)
     = ([VInt 2; VInt 4], Exhausted, 3)
  /\ observed
       (consume 4
          (IterAttempted_values
             (Attempt_map (Attempt_init stops_on_text [KeyError])
                (iter_list [VInt 1; VStr "x"; VInt 3])) false) 0)
     = ([VInt 2], Exhausted, 2).
Proof. repeat split. Qed.

(** ** Laws of [map] and [flatmap] *)

Lemma Attempted_eta (a : Attempted) :
  Attempted_bool a = true -> Attempted_of (_value a) = a.
Proof. destruct a as [v [e |]]; simpl; [discriminate | reflexivity]. Qed.

Lemma Attempted_map_failure {W} (a : Attempted) (f : PyVal -> Py W PyVal) w :
  Attempted_bool a = false -> Attempted_map a f w = (Returns a, w).
Proof. intros Ha. unfold Attempted_map. rewrite Ha. reflexivity. Qed.

(** X1: mapping the identity function gives back the container itself,
    successful or failed, and leaves the world alone. *)
Theorem Attempted_map_identity :
  forall (W : Type) (a : Attempted) (w : W),
    Attempted_map a (fun x => ret x) w = (Returns a, w).
Proof.
  intros W a w. destruct (Attempted_bool a) eqn:Ha.
  - rewrite (Attempted_map_success a _ w Ha).
    rewrite (wrapper_returns (fun x => ret x) (OneClass Exception)
               (_value a) w (_value a) w eq_refl).
    now rewrite Attempted_eta.
  - now apply Attempted_map_failure.
Qed.

Lemma Attempted_map_fusion {W} (a : Attempted) (f g : PyVal -> Py W PyVal)
    (w : W) :
  match Attempted_map a f w with
  | (Returns b, w1) => Attempted_map b g w1
  | (Raises e, w1) => (Raises e, w1)
  end = Attempted_map a (compose f g) w.
Proof.
  destruct (Attempted_bool a) eqn:Ha.
  - rewrite !(Attempted_map_success a _ w Ha).
    unfold compose. unfold wrapper, try_except, bind, ret.
    destruct (f (_value a) w) as [[r | e] w1].
    + rewrite (Attempted_map_success (Attempted_of r) g w1 eq_refl).
      unfold wrapper, try_except, bind, ret. simpl _value.
      destruct (g r w1) as [[r' | e'] w2]; reflexivity.
    + destruct (except_matches (OneClass Exception) e); reflexivity.
  - rewrite !(Attempted_map_failure a _ w Ha). reflexivity.
Qed.

(** X2: mapping [f] and then [g] is mapping [lambda x: g(f(x))], for every
    container: the same container comes back or the same error is raised,
    and the world ends up the same, also when [f] or [g] raises. *)
Theorem Attempted_map_compose :
  forall (W : Type) (a : Attempted) (f g : PyVal -> Py W PyVal) (w : W),
    (b <- Attempted_map a f ;; Attempted_map b g) w
    = Attempted_map a (compose f g) w.
Proof. intros W a f g w. exact (Attempted_map_fusion a f g w). Qed.

(** X3: [flatmap] and [Attempted.of] obey the identity laws of a monad:
    [Attempted.of(v).flatmap(fn)] is [fn(v)], and
    [a.flatmap(Attempted.of)] is [a]. *)
Theorem Attempted_flatmap_identities :
  forall (W : Type) (a : Attempted) (v : PyVal)
         (fn : PyVal -> Py W Attempted) (w : W),
    Attempted_flatmap (Attempted_of v) fn w = fn v w
    /\ Attempted_flatmap a (fun x => ret (Attempted_of x)) w = (Returns a, w).
Proof.
  intros W a v fn w. split; [reflexivity |].
  destruct (Attempted_bool a) eqn:Ha.
  - rewrite (Attempted_flatmap_success a _ w Ha). unfold ret.
    now rewrite Attempted_eta.
  - now apply Attempted_flatmap_failure.
Qed.

(** X4: [a.map(f)] never raises an instance of [Exception]: whatever it
    raises is outside that class. *)
Theorem Attempted_map_never_raises_Exception :
  forall (W : Type) (a : Attempted) (f : PyVal -> Py W PyVal) (e : PyExc)
         (w w' : W),
    Attempted_map a f w = (Raises e, w') ->
    isinstance e Exception = false.
Proof.
  intros W a f e w w' H. destruct (Attempted_bool a) eqn:Ha.
  - rewrite (Attempted_map_success a f w Ha) in H.
    unfold wrapper, try_except, bind, ret in H.
    destruct (f (_value a) w) as [[r | e1] w1]; [discriminate H |].
    simpl except_matches in H.
    destruct (isinstance e1 Exception) eqn:M; [discriminate H |].
    now inversion H; subst.
  - rewrite (Attempted_map_failure a f w Ha) in H. discriminate H.
Qed.

Lemma Attempted_map_never_raises_Exception_witness :
  Attempted_map (Attempted_of (VInt 1)) quit 0 = (Raises err_exit, 1)
  /\ isinstance err_exit Exception = false.
Proof.
  split; [reflexivity |].
  exact (Attempted_map_never_raises_Exception
           nat (Attempted_of (VInt 1)) quit err_exit 0 1 eq_refl).
Defined.

(** ** Reading a call of [Attempt] backwards *)

Lemma wrapper_inversion {W P} (f : P -> Py W PyVal) (spec : ExceptSpec)
    (args : P) (w : W) :
  match wrapper f spec args w with
  | (Returns a, w') =>
      match Attempted_exception a with
      | None => f args w = (Returns (_value a), w')
      | Some e =>
          f args w = (Raises e, w')
          /\ except_matches spec e = true
          /\ _value a = VNone
      end
  | (Raises e, w') =>
      f args w = (Raises e, w') /\ except_matches spec e = false
  end.
Proof.
  unfold wrapper, try_except, bind, ret.
  destruct (f args w) as [[r | e] w1]; [reflexivity |].
  destruct (except_matches spec e) eqn:M; simpl; auto.
Qed.

(** X5: what a call of [Attempt(f, *kinds)] gave tells what [f] did. A
    successful container holds the value [f] returned; a failed one holds
    the error [f] raised, and that error matched the configured classes; an
    error raised by the call is the one [f] raised, and it matched none. *)
Theorem Attempt_call_inversion :
  forall (W P : Type) (f : P -> Py W PyVal) (kinds : list ExcClass)
         (args : P) (w : W),
    match Attempt_call (Attempt_init f kinds) args w with
    | (Returns a, w') =>
        match Attempted_exception a with
        | None => f args w = (Returns (_value a), w')
        | Some e =>
            f args w = (Raises e, w')
            /\ except_matches (_exc_types (Attempt_init f kinds)) e = true
            /\ _value a = VNone
        end
    | (Raises e, w') =>
        f args w = (Raises e, w')
        /\ except_matches (_exc_types (Attempt_init f kinds)) e = false
    end.
Proof.
  intros W P f kinds args w. rewrite Attempt_call_init.
  apply wrapper_inversion.
Qed.

(** X6: with [BaseException] among its classes, a call of [Attempt] never
    raises: whatever the wrapped function does, a container comes back. *)
Theorem Attempt_with_BaseException_never_raises :
  forall (W P : Type) (f : P -> Py W PyVal) (kinds : list ExcClass)
         (args : P) (w : W),
    In BaseException kinds ->
    exists a w', Attempt_call (Attempt_init f kinds) args w = (Returns a, w').
Proof.
  intros W P f kinds args w Hin.
  pose proof (wrapper_inversion f (_exc_types (Attempt_init f kinds)) args w)
    as Hinv.
  rewrite Attempt_call_init.
  destruct (wrapper f (_exc_types (Attempt_init f kinds)) args w)
    as [[a | e] w'];
    [now exists a, w' |].
  destruct Hinv as [_ M]. exfalso.
  destruct kinds as [| k ks]; [destruct Hin |].
  change (existsb (isinstance e) (k :: ks) = false) in M.
  assert (T : existsb (isinstance e) (k :: ks) = true).
  { apply existsb_exists. exists BaseException.
    split; [exact Hin | apply isinstance_BaseException]. }
  congruence.
Qed.

Lemma Attempt_with_BaseException_never_raises_witness :
  In BaseException [ValueError; BaseException]
  /\ exists a w',
       Attempt_call (Attempt_init interrupted [ValueError; BaseException])
         VNone 0 = (Returns a, w').
Proof.
  split; [right; left; reflexivity |].
  apply (Attempt_with_BaseException_never_raises
           nat PyVal interrupted [ValueError; BaseException] VNone 0).
  right; left; reflexivity.
Defined.

(** X7: [map] never leaves a value behind in a failed container: when a
    failed [a] would have [None] in its value field, the container
    [a.map(f)] returns has [None] there too if it is failed. *)
Theorem no_stale_value_kept :
  forall (W : Type) (a : Attempted) (f : PyVal -> Py W PyVal) (b : Attempted)
         (w w' : W),
    no_stale_value a ->
    Attempted_map a f w = (Returns b, w') ->
    no_stale_value b.
Proof.
  intros W a f b w w' Ha H. destruct (Attempted_bool a) eqn:Sa.
  - rewrite (Attempted_map_success a f w Sa) in H.
    pose proof (wrapper_inversion f (OneClass Exception) (_value a) w)
      as Hinv.
    rewrite H in Hinv.
    intros Hb. unfold Attempted_bool in Hb.
    destruct (Attempted_exception b); [apply Hinv | discriminate Hb].
  - rewrite (Attempted_map_failure a f w Sa) in H.
    now inversion H; subst.
Qed.

Lemma no_stale_value_kept_witness :
  no_stale_value (Attempted_of (VStr "x"))
  /\ Attempted_map (Attempted_of (VStr "x")) succ_number 0
     = (Returns (Attempted_of_exception (Some err_value)), 1)
  /\ no_stale_value (Attempted_of_exception (Some err_value)).
Proof.
  assert (H0 : no_stale_value (Attempted_of (VStr "x")))
    by (intros H; discriminate H).
  split; [exact H0 |]. split; [reflexivity |].
  exact (no_stale_value_kept nat (Attempted_of (VStr "x")) succ_number
           (Attempted_of_exception (Some err_value)) 0 1 H0 eq_refl).
Defined.

(** ** Printing *)

(** X8: the printed form tells success from failure: whatever the
    formatters of payloads and exceptions are, two containers with the same
    [repr], or the same [str], are both successful or both failed. *)
Theorem Attempted_repr_tells_success :
  forall (fmt_value : PyVal -> string)
         (fmt_exception : option PyExc -> string) (a b : Attempted),
    (Attempted_repr fmt_value fmt_exception a
     = Attempted_repr fmt_value fmt_exception b ->
     Attempted_bool a = Attempted_bool b)
    /\ (Attempted_str fmt_value fmt_exception a
        = Attempted_str fmt_value fmt_exception b ->
        Attempted_bool a = Attempted_bool b).
Proof.
  intros fv fe a b. unfold Attempted_repr, Attempted_str.
  destruct (Attempted_bool a), (Attempted_bool b); split; intros H;
    try reflexivity; simpl in H; discriminate H.
Qed.

(** ** Pipelines: a source, [Attempt], and [values] *)

(** A source whose elements are calls of [wrapper f spec], one per input,
    read through [values], is the reference loop over the inputs. *)
Lemma consume_wrapped {W P} (f : P -> Py W PyVal) (spec : ExceptSpec)
    (ign : bool) (src : Iterable W Attempted) (xs : list P) :
  Forall2 (fun (c : Py W Attempted) x => forall w, c w = wrapper f spec x w)
    src xs ->
  forall (n : nat) (w : W),
    observed (consume n (mkGenerator ign true src) w)
    = reference_loop (pipeline_on_error spec ign) f n xs w.
Proof.
  induction 1 as [| c x src xs Hc _ IH]; intros n w.
  - destruct n; reflexivity.
  - destruct n as [| n]; [reflexivity |].
    cbn [consume reference_loop]. rewrite gen_next_cons.
    unfold for_next. rewrite Hc.
    unfold wrapper, try_except, bind, ret.
    destruct (f x w) as [[r | e] w1].
    + cbn. rewrite <- (IH n w1).
      destruct (consume n _ w1) as [[[vs ending] g] w2]. reflexivity.
    + unfold pipeline_on_error at 1.
      destruct (except_matches spec e); cbn.
      * destruct ign; cbn; [exact (IH (S n) w1) | reflexivity].
      * destruct (isinstance e StopIteration); reflexivity.
Qed.

Lemma reference_loop_ext {W P} (p q : PyExc -> OnError)
    (f : P -> Py W PyVal) :
  (forall x w e w1, f x w = (Raises e, w1) -> p e = q e) ->
  forall (xs : list P) (n : nat) (w : W),
    reference_loop p f n xs w = reference_loop q f n xs w.
Proof.
  intros H. induction xs as [| x xs IH]; intros n w;
    destruct n as [| n]; try reflexivity.
  cbn [reference_loop]. destruct (f x w) as [[r | e] w1] eqn:Hf.
  - rewrite IH. reflexivity.
  - rewrite (H x w e w1 Hf). destruct (q e); [apply IH | reflexivity ..].
Qed.

Lemma pipeline_on_error_plain (spec : ExceptSpec) (e : PyExc) :
  isinstance e StopIteration = false ->
  pipeline_on_error spec false e = RaiseIt e.
Proof.
  intros He. unfold pipeline_on_error, leaving_generator. rewrite He.
  destruct (except_matches spec e); reflexivity.
Qed.

Lemma Attempt_map_elements {W P} (f : P -> Py W PyVal) kinds (xs : list P) :
  Forall2
    (fun (c : Py W Attempted) x =>
       forall w : W, c w = wrapper f (_exc_types (Attempt_init f kinds)) x w)
    (IterAttempted_iter (Attempt_map (Attempt_init f kinds) (iter_list xs)))
    xs.
Proof. induction xs; constructor; [reflexivity | assumption]. Qed.

Lemma from_values_map_elements {W} (f : PyVal -> Py W PyVal) xs :
  Forall2
    (fun (c : Py W Attempted) x =>
       forall w : W, c w = wrapper f (OneClass Exception) x w)
    (IterAttempted_iter
       (IterAttempted_map (IterAttempted_from_values (iter_list xs)) f))
    xs.
Proof. induction xs; constructor; [reflexivity | assumption]. Qed.


(** X10: for a function that never raises a [StopIteration], and without
    [ignore_failures], the classes an [Attempt] intercepts make no
    difference to what a consumer of [Attempt(f, *kinds).map(xs).values()]
    sees: the same values, the same error raised at the same point, the
    same world. *)
Theorem Attempt_map_values_kinds_irrelevant :
  forall (W P : Type) (f : P -> Py W PyVal) (kinds kinds' : list ExcClass)
         (xs : list P) (n : nat) (w : W),
    (forall x w0 e w1,
        f x w0 = (Raises e, w1) -> isinstance e StopIteration = false) ->
    observed
      (consume n
         (IterAttempted_values
            (Attempt_map (Attempt_init f kinds) (iter_list xs)) false) w)
    = observed
        (consume n
           (IterAttempted_values
              (Attempt_map (Attempt_init f kinds') (iter_list xs)) false) w).
Proof.
  intros W P f kinds kinds' xs n w Hf.
  rewrite (consume_wrapped f _ false _ xs (Attempt_map_elements f kinds xs)).
  rewrite (consume_wrapped f _ false _ xs (Attempt_map_elements f kinds' xs)).
  apply reference_loop_ext. intros x w0 e w1 Hx.
  rewrite !pipeline_on_error_plain by exact (Hf x w0 e w1 Hx).
  reflexivity.
Qed.

Lemma Attempt_map_values_kinds_irrelevant_witness :
  (forall x w0 e w1,
      succ_number x w0 = (Raises e, w1) ->
      isinstance e StopIteration = false)
  /\ observed
       (consume 4
          (IterAttempted_values
             (Attempt_map (Attempt_init succ_number [])
                (iter_list [VInt 1; VStr "x"; VInt 3])) false) 0)
     = observed
         (consume 4
            (IterAttempted_values
               (Attempt_map (Attempt_init succ_number [KeyError])
                  (iter_list [VInt 1; VStr "x"; VInt 3])) false) 0).
Proof.
  assert (H : forall x w0 e w1,
             succ_number x w0 = (Raises e, w1) ->
             isinstance e StopIteration = false).
  { intros x w0 e w1 Hx. destruct x; inversion Hx; reflexivity. }
  split; [exact H |].
  exact (Attempt_map_values_kinds_irrelevant nat PyVal succ_number
           [] [KeyError] [VInt 1; VStr "x"; VInt 3] 4 0 H).
Defined.

(** X11: [IterAttempted.from_values(xs).map(f)] and [Attempt(f).map(xs)]
    are the same pipeline: read through [values] with either policy and for
    any number of steps, they give the same values, end the same way and
    leave the same world. *)
Theorem from_values_map_is_Attempt_map :
  forall (W : Type) (f : PyVal -> Py W PyVal) (xs : list PyVal)
         (ignore_failures : bool) (n : nat) (w : W),
    observed
      (consume n
         (IterAttempted_values
            (IterAttempted_map (IterAttempted_from_values (iter_list xs)) f)
            ignore_failures) w)
    = observed
        (consume n
           (IterAttempted_values
              (Attempt_map (Attempt_init f []) (iter_list xs))
              ignore_failures) w).
Proof.
  intros W f xs ign n w.
  rewrite (consume_wrapped f _ ign _ xs (from_values_map_elements f xs)).
  rewrite (consume_wrapped f _ ign _ xs (Attempt_map_elements f [] xs)).
  reflexivity.
Qed.

(** X12: [IterAttempted.from_values(xs).values()] gives back [xs]: a
    consumer that takes at most [n] values receives the first [n] elements
    of [xs] in order, nothing is raised under either policy, the loop ends
    by exhaustion once all of [xs] has been handed over, and the world is
    left alone. *)
Theorem from_values_values_round_trip :
  forall (W : Type) (xs : list PyVal) (ignore_failures : bool) (n : nat)
         (w : W),
    observed
      (consume n
         (IterAttempted_values (IterAttempted_from_values (iter_list xs))
            ignore_failures) w)
    = (firstn n xs,
       if Nat.leb n (List.length xs) then Suspended else Exhausted,
       w).
Proof.
  intros W xs ign. unfold IterAttempted_values, IterAttempted_iter.
  cbn [_iterable IterAttempted_from_values].
  induction xs as [| x xs IH]; intros n w.
  - destruct n; reflexivity.
  - destruct n as [| n]; [reflexivity |].
    change (py_map (fun x0 => ret (Attempted_of x0)) (iter_list (x :: xs)))
      with ((y <- ret (W := W) x ;; ret (Attempted_of y))
              :: py_map (fun x0 => ret (Attempted_of x0)) (iter_list xs)).
    cbn [consume]. rewrite gen_next_cons. cbn.
    specialize (IH n w).
    destruct (consume n _ w) as [[[vs ending] g] w2].
    cbn in IH. inversion IH; subst. reflexivity.
Qed.

(** X13: with [ignore_failures] set, [values] raises nothing of its own:
    over a source whose elements are all produced without an error,
    whatever else producing them does, no consumer ever sees an error. *)
Theorem values_ignoring_failures_never_raises :
  forall (W : Type) (src : Iterable W Attempted),
    Forall (fun c : Py W Attempted =>
              forall w, exists t w', c w = (Returns t, w')) src ->
    forall (n : nat) (w : W) (vs : list PyVal) (ending : Ending) (w' : W)
           (e : PyExc),
      observed
        (consume n (IterAttempted_values (mkIterAttempted src) true) w)
      = (vs, ending, w') ->
      ending <> Raised e.
Proof.
  intros W src Hsrc. unfold IterAttempted_values, IterAttempted_iter.
  cbn [_iterable].
  induction Hsrc as [| c src Hc _ IH]; intros n w vs ending w' e H.
  - destruct n; cbn in H; inversion H; discriminate.
  - destruct n as [| n]; [cbn in H; inversion H; discriminate |].
    cbn [consume] in H. rewrite gen_next_cons in H. unfold for_next in H.
    destruct (Hc w) as (t & w1 & Ht). rewrite Ht in H.
    destruct (Attempted_exception t).
    + exact (IH (S n) w1 vs ending w' e H).
    + destruct (consume n (mkGenerator true true src) w1)
        as [[[vs1 ending1] g1] w2] eqn:Hrest.
      cbn in H. inversion H; subst.
      apply (IH n w1 vs1 ending w' e). rewrite Hrest. reflexivity.
Qed.

Lemma values_ignoring_failures_never_raises_witness :
  Forall (fun c : Py nat Attempted =>
            forall w, exists t w', c w = (Returns t, w'))
    (iter_list mixed)
  /\ Exhausted <> Raised err_value.
Proof.
  assert (H : Forall (fun c : Py nat Attempted =>
                        forall w, exists t w', c w = (Returns t, w'))
                (iter_list mixed)).
  { repeat constructor; intros w; eexists; eexists; reflexivity. }
  split; [exact H |].
  exact (values_ignoring_failures_never_raises nat (iter_list mixed) H
           4 0 [VInt 1; VInt 3] Exhausted 0 err_value eq_refl).
Defined.

Lemma py_list_cons_returns {W A} (c : Py W A) (rest : Iterable W A)
    (x : A) (xs : list A) (w w1 w2 : W) :
  c w = (Returns x, w1) ->
  py_list rest w1 = (Returns xs, w2) ->
  py_list (c :: rest) w = (Returns (x :: xs), w2).
Proof.
  intros Hc Hrest. cbn [py_list]. unfold for_next. rewrite Hc.
  unfold bind, ret. rewrite Hrest. reflexivity.
Qed.

(** X14: when every error the wrapped function can raise matches the
    configured classes, [list(Attempt(f, *kinds).map(xs))] raises nothing
    and holds one container per input. *)
Theorem Attempt_map_list_is_total :
  forall (W P : Type) (f : P -> Py W PyVal) (kinds : list ExcClass)
         (xs : list P) (w : W),
    (forall x w0 e w1,
        f x w0 = (Raises e, w1) ->
        except_matches (_exc_types (Attempt_init f kinds)) e = true) ->
    exists cs w',
      py_list
        (IterAttempted_iter
           (Attempt_map (Attempt_init f kinds) (iter_list xs))) w
      = (Returns cs, w')
      /\ List.length cs = List.length xs.
Proof.
  intros W P f kinds xs w Hf. revert w.
  induction xs as [| x xs IH]; intros w.
  - exists [], w. split; reflexivity.
  - change (IterAttempted_iter
              (Attempt_map (Attempt_init f kinds) (iter_list (x :: xs))))
      with ((y <- ret (W := W) x ;; Attempt_call (Attempt_init f kinds) y)
              :: IterAttempted_iter
                   (Attempt_map (Attempt_init f kinds) (iter_list xs))).
    destruct (f x w) as [[r | e] w1] eqn:Hx.
    + destruct (IH w1) as (cs & w' & Hcs & Hlen).
      exists (Attempted_of r :: cs), w'.
      split; [| simpl; now rewrite Hlen].
      apply (py_list_cons_returns _ _ _ _ w w1 w'); [| exact Hcs].
      unfold bind, ret. rewrite Attempt_call_init.
      now apply wrapper_returns.
    + destruct (IH w1) as (cs & w' & Hcs & Hlen).
      exists (Attempted_of_exception (Some e) :: cs), w'.
      split; [| simpl; now rewrite Hlen].
      apply (py_list_cons_returns _ _ _ _ w w1 w'); [| exact Hcs].
      unfold bind, ret. rewrite Attempt_call_init.
      apply wrapper_catches; [exact Hx | exact (Hf x w e w1 Hx)].
Qed.

Lemma Attempt_map_list_is_total_witness :
  (forall x w0 e w1,
      succ_number x w0 = (Raises e, w1) ->
      except_matches (_exc_types (Attempt_init succ_number [])) e = true)
  /\ exists cs w',
       py_list
         (IterAttempted_iter
            (Attempt_map (Attempt_init succ_number [])
               (iter_list [VInt 1; VStr "x"; VInt 3]))) 0
       = (Returns cs, w')
       /\ List.length cs = 3.
Proof.
  assert (H : forall x w0 e w1,
             succ_number x w0 = (Raises e, w1) ->
             except_matches (_exc_types (Attempt_init succ_number [])) e
             = true).
  { intros x w0 e w1 Hx. destruct x; inversion Hx; reflexivity. }
  split; [exact H |].
  exact (Attempt_map_list_is_total nat PyVal succ_number []
           [VInt 1; VStr "x"; VInt 3] 0 H).
Defined.

(** X15: on a sequence, mapping [f] and then [g] is mapping
    [lambda x: g(f(x))]: element by element the two sequences are the same
    computation, so they run the same calls and give the same containers
    or raise the same errors. *)
Theorem IterAttempted_map_compose :
  forall (W : Type) (s : IterAttempted W) (f g : PyVal -> Py W PyVal),
    same_elements
      (IterAttempted_iter (IterAttempted_map (IterAttempted_map s f) g))
      (IterAttempted_iter (IterAttempted_map s (compose f g))).
Proof.
  intros W [src] f g. unfold same_elements, IterAttempted_map,
    IterAttempted_iter, py_map. cbn [_iterable].
  induction src as [| c src IH]; constructor; [| exact IH].
  intros w. unfold bind.
  destruct (c w) as [[t | e] w1]; [apply Attempted_map_fusion | reflexivity].
Qed.



(** X17: an element [Attempt.starmap] cannot unpack is not softened: the
    [TypeError] comes from the iteration and not from the wrapped function,
    which is not called, so [values] raises it at once even with
    [ignore_failures] set and whatever classes the [Attempt] intercepts,
    although a [TypeError] is an [Exception]. *)
Theorem Attempt_starmap_unpack_error_escapes :
  forall (W : Type) (self : Attempt W (list PyVal)) (t : PyVal)
         (rest : list PyVal) (ignore_failures : bool) (n : nat) (w : W),
    unpack t = None ->
    observed
      (consume (S n)
         (IterAttempted_values
            (Attempt_starmap self (iter_list (t :: rest)))
            ignore_failures) w)
    = ([], Raised (not_iterable t), w)
    /\ isinstance (not_iterable t) Exception = true.
Proof.
  intros W self t rest ign n w Ht. split; [| reflexivity].
  unfold IterAttempted_values, IterAttempted_iter, Attempt_starmap.
  cbn [_iterable].
  change (py_starmap (Attempt_call self) (iter_list (t :: rest)))
    with ((t0 <- ret (W := W) t ;;
           match unpack t0 with
           | Some args => Attempt_call self args
           | None => raise (not_iterable t0)
           end) :: py_starmap (Attempt_call self) (iter_list rest)).
  cbn [consume]. rewrite gen_next_cons.
  unfold for_next, bind, ret. rewrite Ht. reflexivity.
Qed.

Lemma Attempt_starmap_unpack_error_escapes_witness :
  unpack (VInt 5) = None
  /\ observed
       (consume 3
          (IterAttempted_values
             (Attempt_starmap (Attempt_init add_pair [])
                (iter_list [VInt 5; VTuple [VInt 1; VInt 2]]))
             true) 0)
     = ([], Raised (not_iterable (VInt 5)), 0)
  /\ isinstance (not_iterable (VInt 5)) Exception = true.
Proof.
  split; [reflexivity |].
  exact (Attempt_starmap_unpack_error_escapes nat
           (Attempt_init add_pair []) (VInt 5) [VTuple [VInt 1; VInt 2]]
           true 2 0 eq_refl).
Defined.

(** [starmap] over the pairs (1, 2) and (3, 4) with addition: the sums 3
    and 7, two calls. *)
Example starmap_addition :
  observed
    (consume 3
       (IterAttempted_values
          (Attempt_starmap (Attempt_init add_pair [])
             (iter_list [VTuple [VInt 1; VInt 2]; VTuple [VInt 3; VInt 4]]))
          false) 0)
  = ([VInt 3; VInt 7], Exhausted, 2).
Proof. reflexivity. Qed.

(** X18: [IterAttempted.map] over containers that have all failed gives
    the same containers back, in order, and does not run [fn] at all: the
    world is left as it was whatever [fn] would do to it. *)
Theorem IterAttempted_map_passes_failures :
  forall (W : Type) (xs : list Attempted) (fn : PyVal -> Py W PyVal) (w : W),
    Forall (fun a => Attempted_bool a = false) xs ->
    py_list
      (IterAttempted_iter
         (IterAttempted_map (mkIterAttempted (iter_list xs)) fn)) w
    = (Returns xs, w).
Proof.
  intros W xs fn w Hxs. unfold IterAttempted_map, IterAttempted_iter.
  cbn [_iterable].
  induction Hxs as [| a xs Ha _ IH]; [reflexivity |].
  change (py_map (fun x => Attempted_map x fn) (iter_list (a :: xs)))
    with ((x <- ret (W := W) a ;; Attempted_map x fn)
            :: py_map (fun x => Attempted_map x fn) (iter_list xs)).
  apply (py_list_cons_returns _ _ _ _ w w w); [| exact IH].
  unfold bind, ret. now apply Attempted_map_failure.
Qed.

Lemma IterAttempted_map_passes_failures_witness :
  Forall (fun a => Attempted_bool a = false)
    [failed_zero; Attempted_of_exception (Some err_value)]
  /\ py_list
       (IterAttempted_iter
          (IterAttempted_map
             (mkIterAttempted
                (iter_list
                   [failed_zero; Attempted_of_exception (Some err_value)]))
             succ_number)) 0
     = (Returns [failed_zero; Attempted_of_exception (Some err_value)], 0).
Proof.
  assert (H : Forall (fun a => Attempted_bool a = false)
                [failed_zero; Attempted_of_exception (Some err_value)])
    by (repeat constructor).
  split; [exact H |].
  exact (IterAttempted_map_passes_failures nat
           [failed_zero; Attempted_of_exception (Some err_value)]
           succ_number 0 H).
Defined.
